(** * postDESeq2: annotation and splitting of DESeq2 result tables

    A shallow embedding of [postdeseq2-annotate-and-split.py].

    The script reads every file of [input/] three times, once per output
    shape (annotated table, GOseq expression tables, significant-only
    tables).  Each pass is embedded below as a function of the DataFrame
    that [pd.read_csv(header=None, sep=r'\s+')] returns for the file, of
    the [species] switch and of the annotation workbook.

    Conventions of the embedding:
    - a Python float is an IEEE binary64 number: Rocq's primitive [float],
      whose [<?] is the IEEE comparison (false on NaN), as Python's [<];
    - a cell of column 0 is a [string]; a cell that pandas may leave
      empty ([None]/NaN) is an [option string];
    - a raised exception is a [Raise] result;
    - the write-then-reload of the intermediate TSV files is taken to give
      back the cells that were written. *)

From Stdlib Require Import Floats ZArith Lia Bool List String Ascii PeanoNat.
Import ListNotations.

Set Warnings "-inexact-float".

Open Scope string_scope.
Open Scope list_scope.

(** ** Python values *)

(** [x > y] on Python floats. *)
Definition gtb (x y : float) : bool := (y <? x)%float.
Infix ">?" := gtb (at level 70, no associativity) : float_scope.

(** Exceptions the modelled statements can raise. *)
Inductive PyError : Set :=
| ValueError.  (* "Columns must be same length as key" *)

Inductive result (A : Type) : Type :=
| Ok (a : A)
| Raise (e : PyError).
Arguments Ok {A} a.
Arguments Raise {A} e.

Definition bind {A B : Type} (r : result A) (k : A -> result B) : result B :=
  match r with
  | Ok a => k a
  | Raise e => Raise e
  end.

Notation "x <- r ;; k" := (bind r (fun x => k))
  (at level 61, r at next level, right associativity).

(** A function applied to the value of a result. *)
Definition result_map {A B : Type} (f : A -> B) (r : result A) : result B :=
  x <- r ;; Ok (f x).

Infix "<$$>" := result_map (at level 60, right associativity).

(** ** The DataFrame of one input file *)

(** One line of an input file: columns 0 to 6 of the frame that
    [pd.read_csv] returns (GeneID, Base mean, log2FC, StdErr, Wald-Stats,
    P-value, P-adj).  The category functions read [row[0]], [row[2]] and
    [row[6]]. *)
Record Row : Set := mkRow {
  GeneID    : string;  (* row[0] *)
  Base_mean : float;   (* row[1] *)
  log2FC    : float;   (* row[2] *)
  StdErr    : float;   (* row[3] *)
  Wald_Stats : float;  (* row[4] *)
  P_value   : float;   (* row[5] *)
  P_adj     : float    (* row[6] *)
}.

Definition DataFrame := list Row.

(** The two documented values of the module-level switch [species]:
    ["A"] joins on GeneID, ["S"] joins on the locus obtained by splitting
    GeneID on ['.']. *)
Inductive Species : Set :=
| sA   (* species = "A" *)
| sS.  (* species = "S" *)

(** ** Category functions of the annotated table (lines 77-118)

    Each returns the gene identifier when its condition holds and the
    empty string otherwise. *)

Definition padj_low_005 (row : Row) : string :=
  if (P_adj row <? 0.05)%float then GeneID row else "".

Definition log2FC_high_0_padj_low_005 (row : Row) : string :=
  if ((P_adj row <? 0.05) && (log2FC row >? 0))%float then GeneID row else "".

Definition log2FC_low_0_and_padj_low005 (row : Row) : string :=
  if ((P_adj row <? 0.05) && (log2FC row <? 0))%float then GeneID row else "".

Definition padj_low_001 (row : Row) : string :=
  if (P_adj row <? 0.01)%float then GeneID row else "".

Definition log2FC_high_1_and_padj_low_001 (row : Row) : string :=
  if ((P_adj row <? 0.01) && (log2FC row >? 1))%float then GeneID row else "".

Definition log2FC_low_minus_1_and_padj_low_001 (row : Row) : string :=
  if ((P_adj row <? 0.01) && (log2FC row <? -1))%float then GeneID row else "".

Definition log2FC_higher_1_or_log2FC_low_minus_1_and_padj_001 (row : Row) : string :=
  if ((P_adj row <? 0.01) && ((log2FC row <? -1) || (log2FC row >? 1)))%float
  then GeneID row else "".

(** ** Category functions of the expression tables (lines 236-262)

    The same conditions, rendered as the strings ["True"] and ["False"]. *)

Definition b_padj_low_005 (row : Row) : string :=
  if (P_adj row <? 0.05)%float then "True" else "False".

Definition b_log2FC_high_0_padj_low_005 (row : Row) : string :=
  if ((P_adj row <? 0.05) && (log2FC row >? 0))%float then "True" else "False".

Definition b_log2FC_low_0_and_padj_low005 (row : Row) : string :=
  if ((P_adj row <? 0.05) && (log2FC row <? 0))%float then "True" else "False".

Definition b_padj_low_001 (row : Row) : string :=
  if (P_adj row <? 0.01)%float then "True" else "False".

Definition b_log2FC_high_1_and_padj_low_001 (row : Row) : string :=
  if ((P_adj row <? 0.01) && (log2FC row >? 1))%float then "True" else "False".

Definition b_log2FC_low_minus_1_and_padj_low_001 (row : Row) : string :=
  if ((P_adj row <? 0.01) && (log2FC row <? -1))%float then "True" else "False".

Definition b_log2FC_higher_1_or_log2FC_low_minus_1_and_padj_001 (row : Row) : string :=
  if ((P_adj row <? 0.01) && ((log2FC row <? -1) || (log2FC row >? 1)))%float
  then "True" else "False".

(** The seven functions of each rendering, in the order of [lista]. *)
Definition id_renderings : list (Row -> string) :=
  [ padj_low_005; log2FC_high_0_padj_low_005; log2FC_low_0_and_padj_low005;
    padj_low_001; log2FC_high_1_and_padj_low_001;
    log2FC_low_minus_1_and_padj_low_001;
    log2FC_higher_1_or_log2FC_low_minus_1_and_padj_001 ].

Definition b_renderings : list (Row -> string) :=
  [ b_padj_low_005; b_log2FC_high_0_padj_low_005; b_log2FC_low_0_and_padj_low005;
    b_padj_low_001; b_log2FC_high_1_and_padj_low_001;
    b_log2FC_low_minus_1_and_padj_low_001;
    b_log2FC_higher_1_or_log2FC_low_minus_1_and_padj_001 ].

(** ** Cleaning of the GeneID column (lines 154, 287, 429)

    [df.replace({0: 'gene:'}, {0: ''}, regex=True)] applies
    [re.sub('gene:', '', cell)] to every cell of column 0: every
    non-overlapping occurrence of the pattern, scanned from the left, is
    replaced.  The pattern has no regex metacharacter, so it matches
    itself only.  [re_sub_from skip] drops the next [skip] characters
    (the rest of an occurrence just matched) before it looks for the next
    occurrence; the pattern is not empty. *)
Fixpoint re_sub_from (skip : nat) (pat repl s : string) : string :=
  match s with
  | EmptyString => EmptyString
  | String c s' =>
      match skip with
      | Datatypes.S k => re_sub_from k pat repl s'
      | O =>
          if prefix pat s
          then repl ++ re_sub_from (String.length pat - 1) pat repl s'
          else String c (re_sub_from 0 pat repl s')
      end
  end.

Definition re_sub (pat repl s : string) : string := re_sub_from 0 pat repl s.

Definition set_GeneID (row : Row) (g : string) : Row :=
  mkRow g (Base_mean row) (log2FC row) (StdErr row) (Wald_Stats row)
        (P_value row) (P_adj row).

(** [df.replace({0: 'gene:'}, {0: ''}, regex=True)] *)
Definition replace_gene (df : DataFrame) : DataFrame :=
  map (fun row => set_GeneID row (re_sub "gene:" "" (GeneID row))) df.

(** [sub in s]: some occurrence of [pat] in [s]. *)
Fixpoint occurs (pat s : string) : bool :=
  prefix pat s ||
  match s with
  | EmptyString => false
  | String _ s' => occurs pat s'
  end.

(** ** Splitting GeneID into locus and version (lines 160-164, 434-439) *)

(** Python's [s.split(sep)] for a one-character separator: the pieces
    between all the occurrences of [sep]; never an empty list. *)
Fixpoint str_split (sep : ascii) (s : string) : list string :=
  match s with
  | EmptyString => [EmptyString]
  | String c s' =>
      if Ascii.eqb c sep then EmptyString :: str_split sep s'
      else match str_split sep s' with
           | p :: ps => String c p :: ps
           | [] => [String c EmptyString]
           end
  end.

(** [Series.str.split(sep, expand=True)]: one column per piece, as many
    columns as the longest list of pieces of the Series; shorter rows are
    filled with [None]. *)
Definition width {X : Type} (pieces : list (list X)) : nat :=
  fold_right Nat.max 0 (map (@List.length X) pieces).

Definition str_split_expand (sep : ascii) (col : list string)
  : list (list (option string)) :=
  let pieces := map (str_split sep) col in
  let w := width pieces in
  map (fun p => map Some p ++ repeat None (w - List.length p)) pieces.

(** [df[[7, 8]] = value] for a DataFrame [value]: pandas checks that
    [value] has as many columns as the key lists (two), raising
    ValueError otherwise, and assigns the columns by position. *)
Definition setitem_7_8 (value : list (list (option string)))
  : result (list (option string * option string)) :=
  if Nat.eqb (width value) 2
  then Ok (map (fun cells => (nth 0 cells None, nth 1 cells None)) value)
  else Raise ValueError.

(** A row with the columns 7 and 8 added. *)
Record Row9 : Set := mkRow9 {
  row9 : Row;
  col7 : option string;   (* 'loc' *)
  col8 : option string    (* 'Last' *)
}.

(** Lines 157-164 (and 432-439):
<<
    df[7] = df[0]
    if species == "S":
        df[[7, 8]] = df[7].str.split(".", expand=True)
    else:
        df[8] = df[7]
>> *)
Definition add_loc_Last (species : Species) (df : DataFrame) : result (list Row9) :=
  match species with
  | sS =>
      cols <- setitem_7_8 (str_split_expand "." (map GeneID df)) ;;
      Ok (map (fun rc => mkRow9 (fst rc) (fst (snd rc)) (snd (snd rc)))
              (combine df cols))
  | sA =>
      Ok (map (fun row => mkRow9 row (Some (GeneID row)) (Some (GeneID row))) df)
  end.

(** The identifier that the cleaning leaves in column 0. *)
Definition clean_id (gene_id : string) : string := re_sub "gene:" "" gene_id.

(** The join key of a gene under species A: the merge is made on column
    0, which holds the cleaned identifier. *)
Definition join_key_A (gene_id : string) : string := clean_id gene_id.

(** ** The annotation join (lines 203-209, 463-468) *)

Section Annotation.

(** The columns of the annotation workbook other than the key column;
    they are passed through unchanged. *)
Variable Ann : Type.

(** The annotation workbook, row by row: the cell of the column the
    join is made on (['GeneID'] under species A, ['locus'] under
    species S) and the other columns. *)
Definition AnnotationFile := list (string * Ann).

(** Equality of a key of the left frame with a key of the workbook.  The
    keys of the workbook are strings; an empty cell on the left matches
    none of them. *)
Definition key_eqb (k : option string) (k' : string) : bool :=
  match k with
  | Some s => String.eqb s k'
  | None => false
  end.

(** The rows of the workbook whose key is [k], in the workbook's order. *)
Definition matching (k : option string) (right : AnnotationFile) : list Ann :=
  map snd (filter (fun kv => key_eqb k (fst kv)) right).

(** [pd.merge(left, right, on=key, how='left')]: the rows of [left] in
    their order, each one paired with every row of [right] of the same
    key, or with empty annotation columns ([None]) when there is none. *)
Definition merge_left {L : Type} (key : L -> option string)
           (left : list L) (right : AnnotationFile) : list (L * option Ann) :=
  flat_map (fun l =>
              match matching (key l) right with
              | [] => [(l, None)]
              | ms => map (fun a => (l, Some a)) ms
              end) left.

(** The annotation of a key in a workbook without duplicate keys: the
    row of that key, if there is one. *)
Definition annotation_of (k : option string) (right : AnnotationFile)
  : option Ann :=
  hd_error (matching k right).

(** The column the merge is made on: ['locus'] (a copy of column 7)
    under species S, ['GeneID'] under species A. *)
Definition merge_key (species : Species) (r : Row9) : option string :=
  match species with
  | sS => col7 r
  | sA => Some (GeneID (row9 r))
  end.

(** ** First pass: the annotated table (lines 125-221) *)

(** A row with the seven category columns 9 to 15 added. *)
Record Annotated : Set := mkAnnotated {
  cols0_8 : Row9;
  col9 : string; col10 : string; col11 : string; col12 : string;
  col13 : string; col14 : string; col15 : string
}.

(** Lines 170-176: each category function is applied to the row. *)
Definition add_categories (r : Row9) : Annotated :=
  let row := row9 r in
  mkAnnotated r
    (padj_low_005 row)
    (log2FC_high_0_padj_low_005 row)
    (log2FC_low_0_and_padj_low005 row)
    (padj_low_001 row)
    (log2FC_high_1_and_padj_low_001 row)
    (log2FC_low_minus_1_and_padj_low_001 row)
    (log2FC_higher_1_or_log2FC_low_minus_1_and_padj_001 row).

(** The body of the first loop for one file; the result is the table
    written to [output/annotated/annotated_<file>].  (Under species S
    the columns 'Last' and 'loc' are not written; 'locus' is.) *)
Definition annotated (species : Species) (df : DataFrame)
           (annotation_file : AnnotationFile)
  : result (list (Annotated * option Ann)) :=
  let df := replace_gene df in
  df <- add_loc_Last species df ;;
  let df := map add_categories df in
  let inner_join :=
    merge_left (fun r => merge_key species (cols0_8 r)) df annotation_file in
  Ok inner_join.

(** ** Third pass: the significant-only tables (lines 402-526) *)

(** The seven row filters of lines 476-523, in the order of [lista]. *)
Definition sig_filters : list (Row -> bool) :=
  [ fun r => (P_adj r <? 0.05)%float;
    fun r => ((P_adj r <? 0.05) && (log2FC r >? 0))%float;
    fun r => ((P_adj r <? 0.05) && (log2FC r <? 0))%float;
    fun r => (P_adj r <? 0.01)%float;
    fun r => ((P_adj r <? 0.01) && (log2FC r >? 1))%float;
    fun r => ((P_adj r <? 0.01) && (log2FC r <? -1))%float;
    fun r => ((P_adj r <? 0.01) && ((log2FC r >? 1) || (log2FC r <? -1)))%float ].

(** Line 442: [dfs.drop([8], axis=1)] removes column 8; the rows keep
    their shape here, with nothing in that cell. *)
Definition drop_col8 (r : Row9) : Row9 := mkRow9 (row9 r) (col7 r) None.

(** The body of the third loop for one file: the joined frame [dfs] of
    line 468. *)
Definition sig_frame (species : Species) (df : DataFrame)
           (annotation_file : AnnotationFile)
  : result (list (Row9 * option Ann)) :=
  let dfs := tl df in                       (* dfs.iloc[1:, :] *)
  let dfs := replace_gene dfs in
  dfs <- add_loc_Last species dfs ;;
  let dfs := map drop_col8 dfs in
  Ok (merge_left (merge_key species) dfs annotation_file).

(** The seven tables written to [output/sigOnly/]. *)
Definition sigOnly (species : Species) (df : DataFrame)
           (annotation_file : AnnotationFile)
  : result (list (list (Row9 * option Ann))) :=
  dfs <- sig_frame species df annotation_file ;;
  Ok (map (fun keep => filter (fun j => keep (row9 (fst j))) dfs) sig_filters).

End Annotation.

Arguments merge_left {Ann L} key left right.
Arguments matching {Ann} k right.
Arguments annotation_of {Ann} k right.
Arguments annotated {Ann} species df annotation_file.
Arguments sig_frame {Ann} species df annotation_file.
Arguments sigOnly {Ann} species df annotation_file.

(** ** Second pass: the expression tables (lines 268-391) *)

(** One GOseq table: GeneID and the ["True"]/["False"] flag of one
    category; the other columns are dropped. *)
Definition expression_table (b : Row -> string) (df : DataFrame)
  : list (string * string) :=
  map (fun row => (GeneID row, b row)) df.

(** The seven tables written to [output/expression/] for one file. *)
Definition expression (df : DataFrame) : list (list (string * string)) :=
  let df := replace_gene df in
  map (fun b => expression_table b df) b_renderings.

(** ** The identifier normalization as the specification words it

    These definitions follow the specification, not the script; they are
    compared with the script's functions below. *)

(** Strip [pre] from the start of [s] if it is there; otherwise [s]. *)
Definition spec_strip_prefix (pre s : string) : string :=
  if prefix pre s
  then substring (String.length pre) (String.length s - String.length pre) s
  else s.

(** What stands before the first [sep] of [s] (all of [s] if none). *)
Fixpoint before_first (sep : ascii) (s : string) : string :=
  match s with
  | EmptyString => EmptyString
  | String c s' => if Ascii.eqb c sep then EmptyString
                   else String c (before_first sep s')
  end.

(** What stands after the first [sep] of [s], if there is one. *)
Fixpoint after_first (sep : ascii) (s : string) : option string :=
  match s with
  | EmptyString => None
  | String c s' => if Ascii.eqb c sep then Some s' else after_first sep s'
  end.

(** The number of occurrences of the character [sep] in [s]. *)
Fixpoint count_sep (sep : ascii) (s : string) : nat :=
  match s with
  | EmptyString => 0
  | String c s' => (if Ascii.eqb c sep then 1 else 0) + count_sep sep s'
  end.

(** LocusVersioned normalization of one identifier, in the
    specification's words: split on the first ['.'] into (locus, version);
    an identifier without ['.'] is an error. *)
Definition spec_LocusVersioned (clean : string) : option (string * string) :=
  match after_first "." clean with
  | Some version => Some (before_first "." clean, version)
  | None => None
  end.

(** ** The seven categories as pairs of renderings *)

(** A category: its identifier-or-empty rendering (annotated table) and
    its boolean rendering (expression tables). *)
Definition Category : Type := (Row -> string) * (Row -> string).

Definition category1 : Category := (padj_low_005, b_padj_low_005).
Definition category2 : Category :=
  (log2FC_high_0_padj_low_005, b_log2FC_high_0_padj_low_005).
Definition category3 : Category :=
  (log2FC_low_0_and_padj_low005, b_log2FC_low_0_and_padj_low005).
Definition category4 : Category := (padj_low_001, b_padj_low_001).
Definition category5 : Category :=
  (log2FC_high_1_and_padj_low_001, b_log2FC_high_1_and_padj_low_001).
Definition category6 : Category :=
  (log2FC_low_minus_1_and_padj_low_001, b_log2FC_low_minus_1_and_padj_low_001).
Definition category7 : Category :=
  (log2FC_higher_1_or_log2FC_low_minus_1_and_padj_001,
   b_log2FC_higher_1_or_log2FC_low_minus_1_and_padj_001).

Definition categories : list Category :=
  [category1; category2; category3; category4; category5; category6; category7].

(** A row is in a category when both renderings say so: the annotated
    table shows its identifier and the expression table shows ["True"]. *)
Definition included (cat : Category) (row : Row) : Prop :=
  fst cat row = GeneID row /\ snd cat row = "True".

(** A row is out of a category when both renderings say so. *)
Definition excluded (cat : Category) (row : Row) : Prop :=
  fst cat row = "" /\ snd cat row = "False".

(** ** Example inputs *)

(** The row of scenario A. *)
Definition scenario_A : Row :=
  mkRow "gene:Solyc01g000100.2" 120.5 1.3 0.2 6.5 0.0001 0.002.

(** Rows that sit exactly on a threshold. *)
Definition at_padj_005 : Row := mkRow "g" 1 2 0.1 5 0.04 0.05.
Definition at_padj_001 : Row := mkRow "g" 1 2 0.1 5 0.004 0.01.
Definition at_log2FC_0 : Row := mkRow "g" 1 (-0) 0.1 5 0.0001 0.001.
Definition at_log2FC_1 : Row := mkRow "g" 1 1 0.1 5 0.0001 0.001.
Definition at_log2FC_minus_1 : Row := mkRow "g" 1 (-1) 0.1 5 0.0001 0.001.

(** A strongly up-regulated and a strongly down-regulated gene. *)
Definition strong_up : Row := mkRow "g" 1 2 0.1 5 0.0001 0.001.
Definition strong_down : Row := mkRow "g" 1 (-2) 0.1 5 0.0001 0.001.

(** A significant row whose identifier is the bare prefix. *)
Definition bare_prefix_row : Row := mkRow "gene:" 10 2 0.1 5 0.001 0.001.

(** A file of two significant genes. *)
Definition two_genes : DataFrame :=
  [ mkRow "gene:AT1G01010" 120.5 1.3 0.2 6.5 0.0001 0.002;
    mkRow "gene:AT1G01020" 80.25 (-2.5) 0.3 (-8.3) 0.0001 0.001 ].

(** A file in which one identifier has a version and one has none, and
    a file whose only identifier has two dots. *)
Definition mixed_ids : DataFrame :=
  [ mkRow "Solyc01g000100.2" 120.5 1.3 0.2 6.5 0.0001 0.002;
    mkRow "AT1G01010" 80.25 (-2.5) 0.3 (-8.3) 0.0001 0.001 ].

Definition two_dots : DataFrame :=
  [ mkRow "Solyc01g000100.2.1" 120.5 1.3 0.2 6.5 0.0001 0.002 ].

(** A file whose identifiers carry no version. *)
Definition no_dots : DataFrame :=
  [ mkRow "AT1G01010" 120.5 1.3 0.2 6.5 0.0001 0.002;
    mkRow "AT1G01020" 80.25 (-2.5) 0.3 (-8.3) 0.0001 0.001 ].

(** [two_genes] after the cleaning, with the columns 7 and 8 of species A. *)
Definition two_genes_cols0_8 : list Row9 :=
  map (fun row => mkRow9 row (Some (GeneID row)) (Some (GeneID row)))
      (replace_gene two_genes).

(** A workbook keyed by locus. *)
Definition solyc_workbook : list (string * string) :=
  [ ("Solyc01g000100", "protein kinase") ].

(** A small annotation workbook with unique keys, one of them unused. *)
Definition small_workbook : list (string * string) :=
  [ ("AT1G01020", "ARV1 family protein"); ("AT5G99999", "unused") ].

(** ** Names of the output files (lines 60-69, 214-216, 289-311, 474-480) *)

(** Short names of the seven categories, used in the names of the
    expression and significant-only files. *)
Definition lista : list string :=
  [ "padj_low_005";
    "log2FC_high_0_padj_low_005";
    "log2FC_low_0_and_padj_low005";
    "padj_low_001";
    "log2FC_high_1_and_padj_low_001";
    "log2FC_low_minus_1_and_padj_low_001";
    "log2FC_higher_1_or_log2FC_low_minus_1_and_padj_001" ].

(** [file_name.split(".")] *)
Definition file_nam_without_ext (file_name : string) : list string :=
  str_split "." file_name.

(** [f"output/annotated/{file_name}"], the table written before the
    join and read back (lines 181-195). *)
Definition intermediate_path (file_name : string) : string :=
  "output/annotated/" ++ file_name.

(** [f"output/annotated/annotated_{file_name}"] *)
Definition annotated_path (file_name : string) : string :=
  "output/annotated/annotated_" ++ file_name.

(** [f"output/expression/expression_{file_nam_without_ext[0]}_{lista[i]}.tab"]
    for the category name [category = lista[i]].  ([str.split] never
    gives an empty list, so the index 0 is always there.) *)
Definition expression_path (file_name category : string) : string :=
  "output/expression/expression_"
    ++ hd "" (file_nam_without_ext file_name) ++ "_" ++ category ++ ".tab".

(** [f"output/sigOnly/sig_{file_nam_without_ext[0]}_{lista[i]}.tab"] *)
Definition sig_path (file_name category : string) : string :=
  "output/sigOnly/sig_"
    ++ hd "" (file_nam_without_ext file_name) ++ "_" ++ category ++ ".tab".

(** ** Choice of the annotation workbook (lines 32-41) *)

(** [Series.item()]: the only element of a Series of size one; any other
    size raises ValueError. *)
Definition item {X : Type} (series : list X) : result X :=
  match series with
  | [x] => Ok x
  | _ => Raise ValueError
  end.

(** [annotations.loc[annotations['type'] == annotation, 'name_file'].item()]
    for the index workbook [annotations], given row by row as its
    columns ('type', 'name_file'). *)
Definition annotation_f (annotations : list (string * string))
           (annotation : string) : result string :=
  item (map snd (filter (fun r => String.eqb (fst r) annotation) annotations)).

(** [str.upper()] on ASCII text: the letters a-z become A-Z, every other
    character stays.  (The code typed at the prompt is taken to be ASCII.) *)
Definition is_lower (c : ascii) : bool :=
  (97 <=? nat_of_ascii c)%nat && (nat_of_ascii c <=? 122)%nat.

Definition upper_ascii (c : ascii) : ascii :=
  if is_lower c then ascii_of_nat (nat_of_ascii c - 32) else c.

Fixpoint upper (s : string) : string :=
  match s with
  | EmptyString => EmptyString
  | String c s' => String (upper_ascii c) (upper s')
  end.

(** Some character of [s] is a lowercase ASCII letter. *)
Fixpoint has_lower (s : string) : bool :=
  match s with
  | EmptyString => false
  | String c s' => is_lower c || has_lower s'
  end.

(** Lines 35-41: the typed code is uppercased, then looked up. *)
Definition choose_annotation (annotations : list (string * string))
           (typed : string) : result string :=
  annotation_f annotations (upper typed).

(** [mixed_ids] with the locus and version of each row. *)
Definition mixed_ids_split : list Row9 :=
  [ mkRow9 (mkRow "Solyc01g000100.2" 120.5 1.3 0.2 6.5 0.0001 0.002)
           (Some "Solyc01g000100") (Some "2");
    mkRow9 (mkRow "AT1G01010" 80.25 (-2.5) 0.3 (-8.3) 0.0001 0.001)
           (Some "AT1G01010") None ].

(** A workbook in which one key comes twice. *)
Definition duplicated_workbook : list (string * string) :=
  [ ("AT1G01020", "ARV1 family protein"); ("AT1G01020", "second description") ].

(** An index workbook whose codes are in lower case. *)
Definition lowercase_index : list (string * string) :=
  [ ("itag4", "ITAG4.0_descriptions.xlsx") ].

(** A gene whose adjusted p-value is missing (NA in the DESeq2 table). *)
Definition padj_NA : Row := mkRow "g" 1 2 0.1 5 0.0001 nan.

(** Two files whose names agree up to their first dot. *)
Definition sample_1 : string := "sample.1.txt".
Definition sample_2 : string := "sample.2.txt".

(** An index workbook with two annotation sets. *)
Definition small_index : list (string * string) :=
  [ ("ITAG4", "ITAG4.0_descriptions.xlsx"); ("TAIR", "TAIR10_annotation.xlsx") ].

(** * Properties *)

(** ** Order facts on binary64 numbers

    The primitive comparisons are specified by [SFcompare] on the
    sign/mantissa/exponent view of a float ([Prim2SF]). *)

Lemma cmp_pos_Lt (ma mb : positive) (ea eb : Z) :
  match (ea ?= eb)%Z with
  | Eq => PosDef.Pos.compare_cont Eq ma mb
  | Lt => Lt
  | Gt => Gt
  end = Lt <-> (ea < eb \/ (ea = eb /\ (ma < mb)%positive))%Z.
Proof.
  change (PosDef.Pos.compare_cont Eq ma mb) with (Pos.compare ma mb).
  destruct (Z.compare_spec ea eb) as [E|E|E].
  - rewrite Pos.compare_lt_iff.
    split; [intros; right; auto | intros [H|[_ H]]; [lia | exact H]].
  - split; [intros; left; auto | reflexivity].
  - split; [discriminate | intros [H|[H _]]; lia].
Qed.

Lemma cmp_neg_Lt (ma mb : positive) (ea eb : Z) :
  match (ea ?= eb)%Z with
  | Eq => CompOpp (PosDef.Pos.compare_cont Eq ma mb)
  | Lt => Gt
  | Gt => Lt
  end = Lt <-> (eb < ea \/ (ea = eb /\ (mb < ma)%positive))%Z.
Proof.
  change (PosDef.Pos.compare_cont Eq ma mb) with (Pos.compare ma mb).
  destruct (Z.compare_spec ea eb) as [E|E|E].
  - rewrite <- Pos.compare_antisym, Pos.compare_lt_iff.
    split; [intros; right; auto | intros [H|[_ H]]; [lia | exact H]].
  - split; [discriminate | intros [H|[H _]]; lia].
  - split; [intros; left; auto | reflexivity].
Qed.

Ltac by_signs :=
  simpl; try discriminate;
  repeat match goal with s : bool |- _ => destruct s end;
  simpl; try discriminate; try reflexivity.

Lemma SFcompare_Lt_trans (a b c : spec_float) :
  SFcompare a b = Some Lt -> SFcompare b c = Some Lt -> SFcompare a c = Some Lt.
Proof.
  destruct a as [sa|sa| |sa ma ea], b as [sb|sb| |sb mb eb],
           c as [sc|sc| |sc mc ec];
    by_signs; intros H1 H2; injection H1 as H1; injection H2 as H2; f_equal.
  - apply cmp_neg_Lt in H1, H2. apply cmp_neg_Lt. lia.
  - apply cmp_pos_Lt in H1, H2. apply cmp_pos_Lt. lia.
Qed.

Lemma SFcompare_Eq_sym (a b : spec_float) :
  SFcompare a b = Some Eq -> SFcompare b a = Some Eq.
Proof.
  destruct a as [sa|sa| |sa ma ea], b as [sb|sb| |sb mb eb];
    by_signs; intros H; injection H as H; f_equal;
    change (PosDef.Pos.compare_cont Eq) with Pos.compare in *;
    destruct (Z.compare_spec ea eb) as [E|E|E]; try discriminate; subst;
    rewrite Z.compare_refl;
    destruct (Pos.compare_spec ma mb); try discriminate; subst;
    now rewrite Pos.compare_refl.
Qed.

(** [<] on floats is transitive. *)
Lemma ltb_trans (x y z : float) :
  (x <? y)%float = true -> (y <? z)%float = true -> (x <? z)%float = true.
Proof.
  rewrite !ltb_spec. unfold SFltb. intros H1 H2.
  rewrite (SFcompare_Lt_trans (Prim2SF x) (Prim2SF y) (Prim2SF z)); [reflexivity | | ].
  - destruct (SFcompare (Prim2SF x) (Prim2SF y)) as [[]|]; congruence.
  - destruct (SFcompare (Prim2SF y) (Prim2SF z)) as [[]|]; congruence.
Qed.

(** Two floats that are [==] are not [<] one another. *)
Lemma eqb_not_ltb (x y : float) :
  (x =? y)%float = true -> (x <? y)%float = false /\ (y <? x)%float = false.
Proof.
  rewrite FloatAxioms.eqb_spec, !ltb_spec. unfold SFeqb, SFltb. intros H.
  assert (E : SFcompare (Prim2SF x) (Prim2SF y) = Some Eq)
    by (destruct (SFcompare (Prim2SF x) (Prim2SF y)) as [[]|]; congruence).
  now rewrite (SFcompare_Eq_sym _ _ E), E.
Qed.

(** A float [==] to [y] is not [<] anything that is [<] y. *)
Lemma eqb_not_ltb_below (x y z : float) :
  (x =? y)%float = true -> (z <? y)%float = true -> (x <? z)%float = false.
Proof.
  intros E L. destruct (x <? z)%float eqn:X; [ | reflexivity].
  pose proof (ltb_trans _ _ _ X L) as Y. apply eqb_not_ltb in E.
  destruct E; congruence.
Qed.

Lemma eqb_not_gtb_above (x y z : float) :
  (x =? y)%float = true -> (y <? z)%float = true -> (x >? z)%float = false.
Proof.
  unfold gtb. intros E L. destruct (z <? x)%float eqn:X; [ | reflexivity].
  pose proof (ltb_trans _ _ _ L X) as Y. apply eqb_not_ltb in E.
  destruct E; congruence.
Qed.

(** ** What the two renderings of a category say *)

Ltac by_condition c :=
  destruct c eqn:?; simpl; repeat split; intros;
  repeat match goal with H : _ /\ _ |- _ => destruct H end;
  try reflexivity; try discriminate; try congruence.

Lemma included_category1 row :
  included category1 row <-> (P_adj row <? 0.05)%float = true.
Proof.
  unfold included, category1, padj_low_005, b_padj_low_005; simpl.
  by_condition (P_adj row <? 0.05)%float.
Qed.

Lemma included_category2 row :
  included category2 row <->
  ((P_adj row <? 0.05) && (log2FC row >? 0))%float = true.
Proof.
  unfold included, category2, log2FC_high_0_padj_low_005,
    b_log2FC_high_0_padj_low_005; simpl.
  by_condition ((P_adj row <? 0.05) && (log2FC row >? 0))%float.
Qed.

Lemma included_category3 row :
  included category3 row <->
  ((P_adj row <? 0.05) && (log2FC row <? 0))%float = true.
Proof.
  unfold included, category3, log2FC_low_0_and_padj_low005,
    b_log2FC_low_0_and_padj_low005; simpl.
  by_condition ((P_adj row <? 0.05) && (log2FC row <? 0))%float.
Qed.

Lemma included_category4 row :
  included category4 row <-> (P_adj row <? 0.01)%float = true.
Proof.
  unfold included, category4, padj_low_001, b_padj_low_001; simpl.
  by_condition (P_adj row <? 0.01)%float.
Qed.

Lemma included_category5 row :
  included category5 row <->
  ((P_adj row <? 0.01) && (log2FC row >? 1))%float = true.
Proof.
  unfold included, category5, log2FC_high_1_and_padj_low_001,
    b_log2FC_high_1_and_padj_low_001; simpl.
  by_condition ((P_adj row <? 0.01) && (log2FC row >? 1))%float.
Qed.

Lemma included_category6 row :
  included category6 row <->
  ((P_adj row <? 0.01) && (log2FC row <? -1))%float = true.
Proof.
  unfold included, category6, log2FC_low_minus_1_and_padj_low_001,
    b_log2FC_low_minus_1_and_padj_low_001; simpl.
  by_condition ((P_adj row <? 0.01) && (log2FC row <? -1))%float.
Qed.

Lemma included_category7 row :
  included category7 row <->
  ((P_adj row <? 0.01) && ((log2FC row <? -1) || (log2FC row >? 1)))%float = true.
Proof.
  unfold included, category7, log2FC_higher_1_or_log2FC_low_minus_1_and_padj_001,
    b_log2FC_higher_1_or_log2FC_low_minus_1_and_padj_001; simpl.
  by_condition ((P_adj row <? 0.01) && ((log2FC row <? -1) || (log2FC row >? 1)))%float.
Qed.

Lemma excluded_category1 row :
  excluded category1 row <-> (P_adj row <? 0.05)%float = false.
Proof.
  unfold excluded, category1, padj_low_005, b_padj_low_005; simpl.
  by_condition (P_adj row <? 0.05)%float.
Qed.

Lemma excluded_category2 row :
  excluded category2 row <->
  ((P_adj row <? 0.05) && (log2FC row >? 0))%float = false.
Proof.
  unfold excluded, category2, log2FC_high_0_padj_low_005,
    b_log2FC_high_0_padj_low_005; simpl.
  by_condition ((P_adj row <? 0.05) && (log2FC row >? 0))%float.
Qed.

Lemma excluded_category3 row :
  excluded category3 row <->
  ((P_adj row <? 0.05) && (log2FC row <? 0))%float = false.
Proof.
  unfold excluded, category3, log2FC_low_0_and_padj_low005,
    b_log2FC_low_0_and_padj_low005; simpl.
  by_condition ((P_adj row <? 0.05) && (log2FC row <? 0))%float.
Qed.

Lemma excluded_category4 row :
  excluded category4 row <-> (P_adj row <? 0.01)%float = false.
Proof.
  unfold excluded, category4, padj_low_001, b_padj_low_001; simpl.
  by_condition (P_adj row <? 0.01)%float.
Qed.

Lemma excluded_category5 row :
  excluded category5 row <->
  ((P_adj row <? 0.01) && (log2FC row >? 1))%float = false.
Proof.
  unfold excluded, category5, log2FC_high_1_and_padj_low_001,
    b_log2FC_high_1_and_padj_low_001; simpl.
  by_condition ((P_adj row <? 0.01) && (log2FC row >? 1))%float.
Qed.

Lemma excluded_category6 row :
  excluded category6 row <->
  ((P_adj row <? 0.01) && (log2FC row <? -1))%float = false.
Proof.
  unfold excluded, category6, log2FC_low_minus_1_and_padj_low_001,
    b_log2FC_low_minus_1_and_padj_low_001; simpl.
  by_condition ((P_adj row <? 0.01) && (log2FC row <? -1))%float.
Qed.

Lemma excluded_category7 row :
  excluded category7 row <->
  ((P_adj row <? 0.01) && ((log2FC row <? -1) || (log2FC row >? 1)))%float = false.
Proof.
  unfold excluded, category7, log2FC_higher_1_or_log2FC_low_minus_1_and_padj_001,
    b_log2FC_higher_1_or_log2FC_low_minus_1_and_padj_001; simpl.
  by_condition ((P_adj row <? 0.01) && ((log2FC row <? -1) || (log2FC row >? 1)))%float.
Qed.

(** The category pairs are the two lists of renderings, side by side. *)
Lemma categories_are_the_renderings :
  categories = combine id_renderings b_renderings.
Proof. reflexivity. Qed.

(** ** Strict thresholds *)

(** C1.  Every category is strict at its thresholds.  A row whose P-adj
    is [==] 0.05 is out of categories 1, 2 and 3; one whose P-adj is [==]
    0.01 is out of categories 4 to 7; one whose log2FC is [==] 0 is out
    of categories 2 and 3; [==] 1, out of 5 and 7; [==] -1, out of 6 and
    7.  "Out" is meant for both renderings: the empty string in the
    annotated table and ["False"] in the expression table. *)
Theorem thresholds_are_strict (row : Row) :
  ((P_adj row =? 0.05)%float = true ->
   excluded category1 row /\ excluded category2 row /\ excluded category3 row) /\
  ((P_adj row =? 0.01)%float = true ->
   excluded category4 row /\ excluded category5 row /\
   excluded category6 row /\ excluded category7 row) /\
  ((log2FC row =? 0)%float = true ->
   excluded category2 row /\ excluded category3 row) /\
  ((log2FC row =? 1)%float = true ->
   excluded category5 row /\ excluded category7 row) /\
  ((log2FC row =? -1)%float = true ->
   excluded category6 row /\ excluded category7 row).
Proof.
  split; [ | split; [ | split; [ | split ] ] ]; intros E;
    pose proof (eqb_not_ltb _ _ E) as [L G].
  - rewrite excluded_category1, excluded_category2, excluded_category3.
    rewrite L. auto.
  - rewrite excluded_category4, excluded_category5, excluded_category6,
      excluded_category7.
    rewrite L. auto.
  - rewrite excluded_category2, excluded_category3.
    unfold gtb. rewrite L, G, andb_false_r. auto.
  - rewrite excluded_category5, excluded_category7.
    unfold gtb. rewrite G, orb_false_r.
    rewrite (eqb_not_ltb_below _ 1%float (-1)%float E eq_refl).
    rewrite andb_false_r. auto.
  - rewrite excluded_category6, excluded_category7.
    rewrite L, orb_false_l.
    rewrite (eqb_not_gtb_above _ (-1)%float 1%float E eq_refl).
    rewrite andb_false_r. auto.
Qed.

(** The strictness of the thresholds at five rows, one on each threshold. *)
Lemma thresholds_are_strict_witness :
  (excluded category1 at_padj_005 /\ excluded category2 at_padj_005 /\
   excluded category3 at_padj_005) /\
  (excluded category4 at_padj_001 /\ excluded category5 at_padj_001 /\
   excluded category6 at_padj_001 /\ excluded category7 at_padj_001) /\
  (excluded category2 at_log2FC_0 /\ excluded category3 at_log2FC_0) /\
  (excluded category5 at_log2FC_1 /\ excluded category7 at_log2FC_1) /\
  (excluded category6 at_log2FC_minus_1 /\ excluded category7 at_log2FC_minus_1).
Proof.
  split; [ | split; [ | split; [ | split ] ] ].
  - exact (proj1 (thresholds_are_strict at_padj_005) eq_refl).
  - exact (proj1 (proj2 (thresholds_are_strict at_padj_001)) eq_refl).
  - exact (proj1 (proj2 (proj2 (thresholds_are_strict at_log2FC_0))) eq_refl).
  - exact (proj1 (proj2 (proj2 (proj2 (thresholds_are_strict at_log2FC_1)))) eq_refl).
  - exact (proj2 (proj2 (proj2 (proj2 (thresholds_are_strict at_log2FC_minus_1)))) eq_refl).
Defined.

(** ** Relations between the categories *)




(** ** Agreement of the two renderings *)

(** C2, as the code has it.  For a row whose cleaned identifier is not
    empty, the identifier rendering of each of the seven categories is
    non-empty exactly when its boolean rendering is ["True"]. *)
Theorem renderings_agree (row : Row) :
  GeneID row <> "" ->
  Forall (fun cat : Category => fst cat row <> "" <-> snd cat row = "True")
         categories.
Proof.
  intros NE. unfold categories.
  repeat constructor; simpl; intros H; revert H.
  all: unfold padj_low_005, b_padj_low_005, log2FC_high_0_padj_low_005,
         b_log2FC_high_0_padj_low_005, log2FC_low_0_and_padj_low005,
         b_log2FC_low_0_and_padj_low005, padj_low_001, b_padj_low_001,
         log2FC_high_1_and_padj_low_001, b_log2FC_high_1_and_padj_low_001,
         log2FC_low_minus_1_and_padj_low_001,
         b_log2FC_low_minus_1_and_padj_low_001,
         log2FC_higher_1_or_log2FC_low_minus_1_and_padj_001,
         b_log2FC_higher_1_or_log2FC_low_minus_1_and_padj_001.
  all: match goal with |- context [if ?c then _ else _] => destruct c end;
         intros; congruence.
Qed.

(** The agreement at a row named ["g"]. *)
Lemma renderings_agree_witness :
  Forall (fun cat : Category =>
            fst cat at_log2FC_1 <> "" <-> snd cat at_log2FC_1 = "True")
         categories.
Proof.
  apply renderings_agree. simpl. discriminate.
Defined.

(** C2, as stated, fails on the file line [gene: 10 2 0.1 5 0.001 0.001]:
    the cleaning leaves an empty identifier, so column 9 of the annotated
    table is empty although the expression table says ["True"]. *)
Lemma renderings_disagree_on_empty_identifier :
  map GeneID (replace_gene [bare_prefix_row]) = [""] /\
  map padj_low_005 (replace_gene [bare_prefix_row]) = [""] /\
  map b_padj_low_005 (replace_gene [bare_prefix_row]) = ["True"].
Proof. repeat split. Qed.

(** ** Scenario A *)

(** C9.  The row [gene:Solyc01g000100.2 120.5 1.3 0.2 6.5 0.0001 0.002]
    under species S: the cleaned identifier is ["Solyc01g000100.2"], the
    join key (locus) is ["Solyc01g000100"], the row is in categories 1,
    2, 4, 5 and 7 and out of categories 3 and 6. *)
Theorem scenario_A_LocusVersioned :
  let cleaned := set_GeneID scenario_A "Solyc01g000100.2" in
  let normalized := mkRow9 cleaned (Some "Solyc01g000100") (Some "2") in
  replace_gene [scenario_A] = [cleaned] /\
  add_loc_Last sS [cleaned] = Ok [normalized] /\
  merge_key sS normalized = Some "Solyc01g000100" /\
  included category1 cleaned /\ included category2 cleaned /\
  excluded category3 cleaned /\ included category4 cleaned /\
  included category5 cleaned /\ excluded category6 cleaned /\
  included category7 cleaned.
Proof. repeat split. Qed.

(** The first pass on the row of scenario A: under species S the locus
    finds its annotation; under species A the key is the whole cleaned
    identifier, which a workbook keyed by locus does not hold. *)
Lemma scenario_A_annotated :
  map snd <$$> annotated sS [scenario_A] solyc_workbook
    = Ok [Some "protein kinase"] /\
  map snd <$$> annotated sA [scenario_A] solyc_workbook = Ok [None] /\
  map (fun j => col9 (fst j)) <$$> annotated sS [scenario_A] solyc_workbook
    = Ok ["Solyc01g000100.2"] /\
  map (fun j => col11 (fst j)) <$$> annotated sS [scenario_A] solyc_workbook
    = Ok [""].
Proof. repeat split. Qed.

(** ** The cleaning of identifiers *)

Lemma re_sub_from_without_occurrence (pat repl s : string) :
  occurs pat s = false -> re_sub_from 0 pat repl s = s.
Proof.
  induction s as [ | c s IH]; [reflexivity | ].
  cbn [occurs re_sub_from]. intros [P O]%orb_false_elim.
  rewrite P, (IH O). reflexivity.
Qed.

Lemma re_sub_from_length (pat s : string) (skip : nat) :
  String.length (re_sub_from skip pat "" s) <= String.length s.
Proof.
  revert skip. induction s as [ | c s IH]; intros skip; [reflexivity | ].
  cbn [re_sub_from]. destruct skip as [ | k].
  - destruct (prefix pat (String c s)).
    + cbn [append String.length]. specialize (IH (String.length pat - 1)). lia.
    + cbn [String.length]. specialize (IH 0). lia.
  - cbn [String.length]. specialize (IH k). lia.
Qed.

Lemma re_sub_shortens (a : ascii) (p s : string) :
  occurs (String a p) s = true ->
  String.length (re_sub (String a p) "" s) < String.length s.
Proof.
  unfold re_sub. induction s as [ | c s IH]; [discriminate | ].
  cbn [occurs re_sub_from]. destruct (prefix (String a p) (String c s)).
  - intros _. cbn [append String.length].
    apply Nat.lt_succ_r, re_sub_from_length.
  - cbn [orb String.length]. intros O. specialize (IH O). lia.
Qed.

Lemma prefix_empty (s : string) : prefix "" s = true.
Proof. destruct s; reflexivity. Qed.

(** Where ["gene:"] stands only at the start, the cleaning is the
    stripping of a prefix. *)
Lemma clean_id_strips_leading_prefix (s : string) :
  occurs "gene:" s = false ->
  clean_id ("gene:" ++ s) = s /\ clean_id s = s.
Proof.
  intros O. unfold clean_id, re_sub. split.
  - cbn. rewrite prefix_empty. now apply re_sub_from_without_occurrence.
  - now apply re_sub_from_without_occurrence.
Qed.

Lemma substring_all (s : string) : substring 0 (String.length s) s = s.
Proof. induction s as [ | c s IH]; [reflexivity | cbn; now rewrite IH]. Qed.

Lemma spec_strip_prefix_present (s : string) :
  spec_strip_prefix "gene:" ("gene:" ++ s) = s.
Proof.
  unfold spec_strip_prefix. cbn. rewrite prefix_empty, Nat.sub_0_r.
  apply substring_all.
Qed.

(** Under species A the passes join on the cleaned identifier. *)
Lemma species_A_join_key (df : DataFrame) :
  exists rows, add_loc_Last sA (replace_gene df) = Ok rows /\
    map (merge_key sA) rows = map (fun row => Some (join_key_A (GeneID row))) df.
Proof.
  eexists; split; [reflexivity | ].
  unfold replace_gene. rewrite !map_map. reflexivity.
Qed.

(** C4.  The comments of the script announce the removal of the prefix
    ["gene:"], and so does the specification; the regex replacement
    removes the text wherever it stands.  On the identifier
    ["transgene:GFP"] the script gives ["transGFP"], the stripping of a
    prefix gives the identifier back. *)
Theorem cleaning_removes_inner_occurrences :
  map GeneID (replace_gene [mkRow "transgene:GFP" 1 2 0.1 5 0.0001 0.001])
    = ["transGFP"] /\
  spec_strip_prefix "gene:" "transgene:GFP" = "transgene:GFP" /\
  prefix "gene:" "transgene:GFP" = false.
Proof. repeat split. Qed.




(** ** The split into locus and version *)

Section Split.

Variable sep : ascii.

(** [s.split(sep)] is what stands before the first separator, followed
    by the split of what stands after it. *)
Lemma str_split_unfold (s : string) :
  str_split sep s =
  before_first sep s ::
    match after_first sep s with
    | Some rest => str_split sep rest
    | None => []
    end.
Proof.
  induction s as [ | c s IH]; [reflexivity | ].
  cbn [str_split before_first after_first].
  destruct (Ascii.eqb c sep); [reflexivity | ].
  rewrite IH. reflexivity.
Qed.

Lemma after_first_none (s : string) :
  count_sep sep s = 0 <-> after_first sep s = None.
Proof.
  induction s as [ | c s IH]; cbn [count_sep after_first]; [tauto | ].
  destruct (Ascii.eqb c sep); [ | exact IH].
  split; discriminate.
Qed.

Lemma after_first_count (s rest : string) :
  after_first sep s = Some rest -> count_sep sep s = S (count_sep sep rest).
Proof.
  induction s as [ | c s IH]; cbn [count_sep after_first]; [discriminate | ].
  destruct (Ascii.eqb c sep).
  - intros [= ->]. reflexivity.
  - exact IH.
Qed.

Lemma before_first_all (s : string) :
  count_sep sep s = 0 -> before_first sep s = s.
Proof.
  induction s as [ | c s IH]; cbn [count_sep before_first]; [reflexivity | ].
  destruct (Ascii.eqb c sep); [discriminate | ].
  intros H. now rewrite IH.
Qed.

Lemma str_split_length (s : string) :
  List.length (str_split sep s) = S (count_sep sep s).
Proof.
  induction s as [ | c s IH]; [reflexivity | ].
  cbn [str_split count_sep]. destruct (Ascii.eqb c sep).
  - cbn [List.length]. now rewrite IH.
  - destruct (str_split sep s); [discriminate | exact IH].
Qed.

(** The two cells that a row with at most one separator gets in a
    two-column expansion. *)
Lemma cells_of_versioned (s : string) :
  count_sep sep s <= 1 ->
  let cells := map Some (str_split sep s)
               ++ repeat None (2 - List.length (str_split sep s)) in
  nth 0 cells None = Some (before_first sep s) /\
  nth 1 cells None = after_first sep s.
Proof.
  intros C. rewrite str_split_unfold.
  destruct (after_first sep s) as [rest | ] eqn:A.
  - pose proof (after_first_count _ _ A) as E.
    assert (Z : count_sep sep rest = 0) by lia.
    rewrite str_split_unfold, (proj1 (after_first_none rest) Z),
      (before_first_all _ Z).
    split; reflexivity.
  - split; reflexivity.
Qed.

End Split.

Section Width.

Context {X : Type}.

Lemma width_upper (n : nat) (pieces : list (list X)) :
  (forall p, In p pieces -> List.length p <= n) -> width pieces <= n.
Proof.
  unfold width. induction pieces as [ | p ps IH]; cbn; intros H; [lia | ].
  pose proof (H p (or_introl eq_refl)).
  specialize (IH (fun q Hq => H q (or_intror Hq))). lia.
Qed.

Lemma width_lower (p : list X) (pieces : list (list X)) :
  In p pieces -> List.length p <= width pieces.
Proof.
  unfold width. induction pieces as [ | q ps IH]; cbn; [tauto | ].
  intros [-> | H]; [lia | ]. specialize (IH H). lia.
Qed.

Lemma width_uniform (n : nat) (rows : list (list X)) :
  rows <> [] -> (forall r, In r rows -> List.length r = n) -> width rows = n.
Proof.
  intros NE H. apply Nat.le_antisymm.
  - apply width_upper. intros p Hp. rewrite (H p Hp). lia.
  - destruct rows as [ | r rs]; [congruence | ].
    rewrite <- (H r (or_introl eq_refl)). apply width_lower. now left.
Qed.

End Width.

(** The expansion is as wide as the longest list of pieces. *)
Lemma str_split_expand_width (sep : ascii) (col : list string) :
  width (str_split_expand sep col) = width (map (str_split sep) col).
Proof.
  unfold str_split_expand. destruct col as [ | s col]; [reflexivity | ].
  set (pieces := map (str_split sep) (s :: col)).
  apply width_uniform; [discriminate | ].
  intros r [p [<- Hp]]%in_map_iff.
  rewrite length_app, length_map, repeat_length.
  pose proof (width_lower p pieces Hp). lia.
Qed.

Lemma map_combine_map {X Y Z : Type} (f : X * Y -> Z) (g : X -> Y) (l : list X) :
  map f (combine l (map g l)) = map (fun x => f (x, g x)) l.
Proof. induction l as [ | x l IH]; cbn; [reflexivity | now rewrite IH]. Qed.

Lemma split_width_two (df : DataFrame) :
  (forall row, In row df -> count_sep "." (GeneID row) <= 1) ->
  (exists row, In row df /\ count_sep "." (GeneID row) = 1) ->
  width (map (str_split ".") (map GeneID df)) = 2.
Proof.
  intros Hall [row [Hin Hone]]. apply Nat.le_antisymm.
  - apply width_upper. intros p Hp. rewrite map_map in Hp.
    apply in_map_iff in Hp as [r [<- Hr]].
    rewrite str_split_length. specialize (Hall r Hr). lia.
  - rewrite <- Hone, <- str_split_length.
    apply width_lower. rewrite map_map.
    apply in_map_iff. now exists row.
Qed.

Lemma split_width_one (df : DataFrame) :
  (forall row, In row df -> count_sep "." (GeneID row) = 0) ->
  width (map (str_split ".") (map GeneID df)) <= 1.
Proof.
  intros Hall. apply width_upper. intros p Hp. rewrite map_map in Hp.
  apply in_map_iff in Hp as [r [<- Hr]].
  rewrite str_split_length, (Hall r Hr). lia.
Qed.

(** C5, as the code has it.  Under species S the split is made on the
    whole GeneID column of a file.  When no identifier of the file has
    more than one ['.'] and at least one has one, the assignment goes
    through: each row gets as locus (column 7, the join key) what stands
    before its ['.'] and as version (column 8) what stands after it; a
    row without ['.'] keeps its identifier as locus and gets an empty
    version.  When no identifier of the file has a ['.'], the assignment
    raises ValueError. *)
Theorem locus_split_per_file (df : DataFrame) :
  ((forall row, In row df -> count_sep "." (GeneID row) <= 1) ->
   (exists row, In row df /\ count_sep "." (GeneID row) = 1) ->
   add_loc_Last sS df =
   Ok (map (fun row => mkRow9 row (Some (before_first "." (GeneID row)))
                              (after_first "." (GeneID row))) df)) /\
  ((forall row, In row df -> count_sep "." (GeneID row) = 0) ->
   add_loc_Last sS df = Raise ValueError).
Proof.
  split.
  - intros Hall Hex. unfold add_loc_Last, setitem_7_8.
    rewrite str_split_expand_width, (split_width_two df Hall Hex).
    cbn [Nat.eqb bind]. f_equal.
    unfold str_split_expand. rewrite (split_width_two df Hall Hex).
    rewrite !map_map, map_combine_map.
    apply map_ext_in. intros row Hrow. cbn [fst snd].
    destruct (cells_of_versioned "." (GeneID row) (Hall row Hrow)) as [E7 E8].
    now rewrite E7, E8.
  - intros Hall. unfold add_loc_Last, setitem_7_8.
    rewrite str_split_expand_width.
    pose proof (split_width_one df Hall) as W.
    destruct (Nat.eqb_spec (width (map (str_split ".") (map GeneID df))) 2) as [E | _];
      [lia | reflexivity].
Qed.

(** The split of a file with and without versions, and of a file without
    any version. *)
Lemma locus_split_per_file_witness :
  add_loc_Last sS mixed_ids =
  Ok (map (fun row => mkRow9 row (Some (before_first "." (GeneID row)))
                             (after_first "." (GeneID row))) mixed_ids) /\
  add_loc_Last sS no_dots = Raise ValueError.
Proof.
  split.
  - apply (proj1 (locus_split_per_file mixed_ids)).
    + intros row [<- | [<- | []]]; cbn; lia.
    + eexists; split; [left; reflexivity | reflexivity].
  - apply (proj2 (locus_split_per_file no_dots)).
    intros row [<- | [<- | []]]; reflexivity.
Defined.

(** C5, as stated, fails twice.  In a file where another identifier has
    a version, an identifier without ['.'] does not fail: it becomes its
    own locus.  And an identifier with two ['.'] is not split on the
    first one: the assignment of three columns to two raises. *)
Lemma locus_split_counterexample :
  spec_LocusVersioned "AT1G01010" = None /\
  map col7 <$$> add_loc_Last sS mixed_ids
    = Ok [Some "Solyc01g000100"; Some "AT1G01010"] /\
  map col8 <$$> add_loc_Last sS mixed_ids = Ok [Some "2"; None] /\
  spec_LocusVersioned "Solyc01g000100.2.1" = Some ("Solyc01g000100", "2.1") /\
  add_loc_Last sS two_dots = Raise ValueError.
Proof. repeat split. Qed.

(** ** The annotation join *)

Section Join.

Context {Ann L : Type}.
Implicit Types (right : list (string * Ann)) (left : list L).

Lemma matching_absent (s : string) right :
  ~ In s (map fst right) -> matching (Some s) right = [].
Proof.
  unfold matching. induction right as [ | [k a] right IH]; [reflexivity | ].
  cbn. intros H. destruct (String.eqb_spec s k) as [-> | _].
  - exfalso. apply H. now left.
  - apply IH. intros Hin. apply H. now right.
Qed.

(** With unique keys at most one row of the workbook matches a key. *)
Lemma matching_unique (k : option string) right :
  NoDup (map fst right) ->
  matching k right = match annotation_of k right with
                     | Some a => [a]
                     | None => []
                     end.
Proof.
  unfold annotation_of. destruct k as [s | ].
  - induction right as [ | [k a] right IH]; [reflexivity | ].
    intros ND. inversion ND as [ | ? ? Hk ND']; subst.
    unfold matching in *. cbn in *.
    destruct (String.eqb_spec s k) as [-> | _].
    + cbn. f_equal. exact (matching_absent k right Hk).
    + exact (IH ND').
  - intros _. unfold matching.
    induction right as [ | [k a] right IH]; [reflexivity | exact IH].
Qed.

Lemma merge_left_unique (key : L -> option string) left right :
  NoDup (map fst right) ->
  merge_left key left right =
  map (fun l => (l, annotation_of (key l) right)) left.
Proof.
  intros ND. unfold merge_left.
  induction left as [ | l left IH]; [reflexivity | ].
  cbn [flat_map]. rewrite IH, (matching_unique (key l) right ND).
  change (map ?f (l :: left)) with (f l :: map f left). cbv beta.
  destruct (annotation_of (key l) right); reflexivity.
Qed.

Lemma annotation_of_unmatched (k : option string) right :
  (forall kv, In kv right -> key_eqb k (fst kv) = false) ->
  annotation_of k right = None.
Proof.
  unfold annotation_of, matching.
  induction right as [ | kv right IH]; [reflexivity | ].
  intros H. cbn. rewrite (H kv (or_introl eq_refl)).
  apply IH. intros kv' Hin. apply H. now right.
Qed.

Lemma merge_left_ext (key key' : L -> option string) left right :
  (forall l, key l = key' l) ->
  merge_left key left right = merge_left key' left right.
Proof.
  intros E. unfold merge_left.
  induction left as [ | l left IH]; [reflexivity | ].
  cbn [flat_map]. rewrite E. f_equal. exact IH.
Qed.

End Join.

Lemma merge_left_map {Ann L M : Type} (f : L -> M) (key : M -> option string)
      (left : list L) (right : list (string * Ann)) :
  merge_left key (map f left) right =
  map (fun j => (f (fst j), snd j)) (merge_left (fun l => key (f l)) left right).
Proof.
  unfold merge_left. induction left as [ | l left IH]; [reflexivity | ].
  change (map f (l :: left)) with (f l :: map f left).
  cbn [flat_map]. rewrite map_app, IH. f_equal.
  destruct (matching (key (f l)) right) as [ | a ms]; [reflexivity | ].
  now rewrite map_map.
Qed.

Lemma annotation_join_complete_aux {Ann : Type} (species : Species)
      (df : list Row9) (annotation_file : list (string * Ann)) :
  NoDup (map fst annotation_file) ->
  merge_left (fun r => merge_key species (cols0_8 r))
             (map add_categories df) annotation_file
  = map (fun r => (add_categories r,
                   annotation_of (merge_key species r) annotation_file)) df
  /\
  merge_left (merge_key species) (map drop_col8 df) annotation_file
  = map (fun r => (drop_col8 r,
                   annotation_of (merge_key species r) annotation_file)) df.
Proof.
  intros ND. split.
  - rewrite merge_left_unique by exact ND. now rewrite map_map.
  - rewrite merge_left_unique by exact ND. rewrite map_map.
    apply map_ext. intros r. destruct species; reflexivity.
Qed.





(** ** The rows each pass works on *)

(** The second pass writes one line per line of the input file in each
    of its seven tables. *)
Lemma expression_keeps_every_row (df : DataFrame) :
  Forall (fun table => map fst table = map (fun row => clean_id (GeneID row)) df)
         (expression df).
Proof.
  unfold expression, b_renderings, expression_table, replace_gene.
  repeat constructor; rewrite !map_map; reflexivity.
Qed.


(** C6.  The third pass drops the first line of every file
    ([dfs.iloc[1:, :]], commented "drop if present"), which the first and
    second passes keep.  On a headerless file of two significant genes,
    both genes are in the annotated table and in every expression table,
    and the first gene, flagged ["True"] for padj < 0.05, is in none of the
    significant-only tables. *)
Theorem third_pass_drops_first_row :
  map (fun j => GeneID (row9 (cols0_8 (fst j))))
    <$$> annotated sA two_genes small_workbook
  = Ok ["AT1G01010"; "AT1G01020"] /\
  expression_table b_padj_low_005 (replace_gene two_genes)
  = [("AT1G01010", "True"); ("AT1G01020", "True")] /\
  map (map fst) (expression two_genes)
  = repeat ["AT1G01010"; "AT1G01020"] 7 /\
  map (fun j => GeneID (row9 (fst j)))
    <$$> sig_frame sA two_genes small_workbook
  = Ok ["AT1G01020"] /\
  map (map (fun j => GeneID (row9 (fst j))))
    <$$> sigOnly sA two_genes small_workbook
  = Ok [ ["AT1G01020"]; []; ["AT1G01020"]; ["AT1G01020"]; [];
         ["AT1G01020"]; ["AT1G01020"] ].
Proof. repeat split. Qed.

(** * Further properties of the script *)

(** ** Missing values *)

Lemma SFcompare_refl (a : spec_float) :
  a <> S754_nan -> SFcompare a a = Some Eq.
Proof.
  destruct a as [s | s | | s m e]; [ | | congruence | ]; intros _;
    try (destruct s; reflexivity).
  cbn. rewrite Z.compare_refl.
  change (PosDef.Pos.compare_cont Eq m m) with (Pos.compare m m).
  rewrite Pos.compare_refl. destruct s; reflexivity.
Qed.

(** A NaN is [<] nothing and nothing is [<] it. *)
Lemma nan_not_ltb (x y : float) :
  is_nan x = true -> (x <? y)%float = false /\ (y <? x)%float = false.
Proof.
  unfold is_nan. rewrite FloatAxioms.eqb_spec, !ltb_spec. intros N.
  assert (E : Prim2SF x = S754_nan).
  { destruct (Prim2SF x) as [s | s | | s m e] eqn:P; [ | | reflexivity | ];
      exfalso; unfold SFeqb in N; rewrite SFcompare_refl in N;
      discriminate. }
  rewrite E. split; [reflexivity | ].
  unfold SFltb. destruct (Prim2SF y); reflexivity.
Qed.

(** X1.  A gene whose P-adj is NaN (an NA of DESeq2) is in none of the
    seven categories, in any of the three output shapes. *)
Theorem nan_padj_in_no_category (row : Row) :
  is_nan (P_adj row) = true ->
  Forall (fun cat : Category => excluded cat row) categories /\
  Forall (fun keep : Row -> bool => keep row = false) sig_filters.
Proof.
  intros N.
  assert (L5 : (P_adj row <? 0.05)%float = false) by apply (nan_not_ltb _ _ N).
  assert (L1 : (P_adj row <? 0.01)%float = false) by apply (nan_not_ltb _ _ N).
  split.
  - unfold categories. repeat apply Forall_cons; [ .. | apply Forall_nil].
    + now apply excluded_category1.
    + apply excluded_category2. now rewrite L5.
    + apply excluded_category3. now rewrite L5.
    + now apply excluded_category4.
    + apply excluded_category5. now rewrite L1.
    + apply excluded_category6. now rewrite L1.
    + apply excluded_category7. now rewrite L1.
  - unfold sig_filters. repeat constructor; rewrite ?L5, ?L1; reflexivity.
Qed.

Lemma nan_padj_in_no_category_witness :
  Forall (fun cat : Category => excluded cat padj_NA) categories /\
  Forall (fun keep : Row -> bool => keep padj_NA = false) sig_filters.
Proof. apply nan_padj_in_no_category. reflexivity. Defined.

(** ** The filters of the significant-only tables *)

Lemma flag_is_True (c : bool) :
  (if c then "True" else "False") = "True" <-> c = true.
Proof. destruct c; split; intros; try reflexivity; discriminate. Qed.

(** X2.  Each of the seven row filters of the third pass holds exactly
    when the boolean rendering of the same category is ["True"]. *)
Theorem sig_filters_agree_with_flags :
  Forall2 (fun (keep : Row -> bool) (b : Row -> string) =>
             forall row, keep row = true <-> b row = "True")
          sig_filters b_renderings.
Proof.
  unfold sig_filters, b_renderings.
  repeat apply Forall2_cons; [ .. | apply Forall2_nil]; intros row;
    unfold b_padj_low_005, b_log2FC_high_0_padj_low_005,
      b_log2FC_low_0_and_padj_low005, b_padj_low_001,
      b_log2FC_high_1_and_padj_low_001, b_log2FC_low_minus_1_and_padj_low_001,
      b_log2FC_higher_1_or_log2FC_low_minus_1_and_padj_001;
    rewrite flag_is_True; try reflexivity.
  now rewrite (orb_comm (log2FC row >? 1)%float).
Qed.

(** X3.  The third pass raises exactly when its join frame does;
    otherwise each of its seven tables holds, in the order of the frame,
    the joined rows whose expression flag would be ["True"]. *)
Theorem sigOnly_tables_by_flag {Ann : Type} (species : Species) (df : DataFrame)
        (annotation_file : list (string * Ann)) :
  sigOnly species df annotation_file =
  (fun dfs => map (fun b : Row -> string =>
                     filter (fun j => String.eqb (b (row9 (fst j))) "True") dfs)
                  b_renderings)
    <$$> sig_frame species df annotation_file.
Proof.
  unfold sigOnly, result_map.
  destruct (sig_frame species df annotation_file) as [dfs | e]; [ | reflexivity].
  cbn [bind]. f_equal. unfold sig_filters, b_renderings. cbn [map].
  repeat match goal with
         | |- (_ :: _) = (_ :: _) => apply f_equal2
         end; try reflexivity;
    apply filter_ext; intros j; cbv beta;
    unfold b_padj_low_005, b_log2FC_high_0_padj_low_005,
      b_log2FC_low_0_and_padj_low005, b_padj_low_001,
      b_log2FC_high_1_and_padj_low_001, b_log2FC_low_minus_1_and_padj_low_001,
      b_log2FC_higher_1_or_log2FC_low_minus_1_and_padj_001;
    rewrite ?(orb_comm (log2FC (row9 (fst j)) >? 1)%float);
    match goal with
    | |- context [if ?c then _ else _] => destruct c
    end; reflexivity.
Qed.

(** Order facts at the thresholds of the script. *)
Lemma padj_001_005 (x : float) :
  (x <? 0.01)%float = true -> (x <? 0.05)%float = true.
Proof. intros H. exact (ltb_trans x 0.01%float 0.05%float H eq_refl). Qed.

Lemma above_1_above_0 (x : float) :
  (x >? 1)%float = true -> (x >? 0)%float = true.
Proof. unfold gtb. intros H. exact (ltb_trans 0%float 1%float x eq_refl H). Qed.

Lemma below_minus_1_below_0 (x : float) :
  (x <? -1)%float = true -> (x <? 0)%float = true.
Proof. intros H. exact (ltb_trans x (-1)%float 0%float H eq_refl). Qed.

Lemma not_above_and_below (x y z : float) :
  (y <? z)%float = true \/ (y =? z)%float = true ->
  (x >? z)%float = true -> (x <? y)%float = true -> False.
Proof.
  unfold gtb. intros Hyz G L.
  pose proof (ltb_trans _ _ _ G L) as ZY.
  destruct Hyz as [YZ | E].
  - pose proof (ltb_trans _ _ _ ZY YZ) as ZZ.
    assert (E : (z =? z)%float = true).
    { rewrite FloatAxioms.eqb_spec. rewrite ltb_spec in ZZ.
      unfold SFltb in ZZ. unfold SFeqb. rewrite SFcompare_refl; [reflexivity | ].
      intros N. rewrite N in ZZ. discriminate. }
    apply eqb_not_ltb in E. destruct E; congruence.
  - apply eqb_not_ltb in E. destruct E; congruence.
Qed.

(** X4.  The third pass, when it does not raise, writes seven tables.
    They nest as the categories do: tables 2, 3 and 4 lie within table
    1, table 5 within 2 and 4, table 6 within 3 and 4; table 7 holds the
    rows of tables 5 and 6 together; and no row is in both the "up" and
    the "down" table (2 and 3). *)
Theorem sigOnly_tables_nest {Ann : Type} (species : Species) (df : DataFrame)
        (annotation_file : list (string * Ann)) :
  match sigOnly species df annotation_file with
  | Ok [t1; t2; t3; t4; t5; t6; t7] =>
      incl t2 t1 /\ incl t3 t1 /\ incl t4 t1 /\
      incl t5 t2 /\ incl t5 t4 /\ incl t6 t3 /\ incl t6 t4 /\
      (forall j, In j t7 <-> In j t5 \/ In j t6) /\
      (forall j, ~ (In j t2 /\ In j t3))
  | Ok _ => False
  | Raise _ => True
  end.
Proof.
  unfold sigOnly.
  destruct (sig_frame species df annotation_file) as [dfs | e]; [ | exact I].
  cbn [bind sig_filters map]. unfold incl.
  repeat split; try intros j; rewrite ?filter_In.
  - intros [Hin [H _]%andb_prop]. auto.
  - intros [Hin [H _]%andb_prop]. auto.
  - intros [Hin H]. auto using padj_001_005.
  - intros [Hin [H G]%andb_prop].
    rewrite (padj_001_005 _ H), (above_1_above_0 _ G). auto.
  - intros [Hin [H _]%andb_prop]. auto.
  - intros [Hin [H G]%andb_prop].
    rewrite (padj_001_005 _ H), (below_minus_1_below_0 _ G). auto.
  - intros [Hin [H _]%andb_prop]. auto.
  - intros [Hin [H [G | G]%orb_prop]%andb_prop]; rewrite H, G; auto.
  - intros [[Hin [H G]%andb_prop] | [Hin [H G]%andb_prop]];
      rewrite H, G, ?orb_true_r; auto.
  - intros [[_ [_ G]%andb_prop] [_ [_ L]%andb_prop]].
    exact (not_above_and_below _ 0%float 0%float (or_intror eq_refl) G L).
Qed.


(** ** The expression tables *)


(** ** Short files *)

(** X7.  Under species A a file of a single line gives seven empty
    significant-only tables, whatever the line says. *)
Theorem sigOnly_of_a_single_line {Ann : Type} (row : Row)
        (annotation_file : list (string * Ann)) :
  sigOnly sA [row] annotation_file = Ok (repeat [] 7).
Proof. reflexivity. Qed.

(** ** Fixed points of the cleaning *)

(** X8.  The cleaning leaves an identifier as it is exactly when the
    identifier holds no ["gene:"]; it never makes an identifier longer. *)
Theorem cleaning_fixed_points (s : string) :
  (clean_id s = s <-> occurs "gene:" s = false) /\
  String.length (clean_id s) <= String.length s.
Proof.
  unfold clean_id, re_sub. split; [split | ].
  - intros E. destruct (occurs "gene:" s) eqn:O; [ | reflexivity].
    apply re_sub_shortens in O. unfold re_sub in O. rewrite E in O. lia.
  - apply re_sub_from_without_occurrence.
  - apply re_sub_from_length.
Qed.

(** ** When the split into locus and version goes through *)

Lemma width_attained {X : Type} (pieces : list (list X)) :
  width pieces <> 0 -> exists p, In p pieces /\ List.length p = width pieces.
Proof.
  unfold width. induction pieces as [ | p ps IH]; cbn; [congruence | ].
  intros NZ. destruct (Nat.max_spec (List.length p)
                         (fold_right Nat.max 0 (map (@List.length X) ps)))
    as [[Hlt ->] | [Hle ->]].
  - destruct IH as [q [Hq E]]; [lia | ]. exists q. auto.
  - exists p. auto.
Qed.

Lemma add_loc_Last_S_unfold (df : DataFrame) :
  add_loc_Last sS df =
  if Nat.eqb (width (map (str_split ".") (map GeneID df))) 2
  then Ok (map (fun row =>
                  let cells := map Some (str_split "." (GeneID row))
                               ++ repeat None (2 - List.length (str_split "." (GeneID row))) in
                  mkRow9 row (nth 0 cells None) (nth 1 cells None)) df)
  else Raise ValueError.
Proof.
  unfold add_loc_Last, setitem_7_8. rewrite str_split_expand_width.
  destruct (Nat.eqb_spec (width (map (str_split ".") (map GeneID df))) 2)
    as [E | _]; [ | reflexivity].
  cbn [bind]. f_equal. unfold str_split_expand. rewrite E.
  rewrite !map_map, map_combine_map. reflexivity.
Qed.

Lemma add_loc_Last_S_success (df : DataFrame) (rows : list Row9) :
  add_loc_Last sS df = Ok rows ->
  (forall row, In row df -> count_sep "." (GeneID row) <= 1) /\
  (exists row, In row df /\ count_sep "." (GeneID row) = 1) /\
  rows = map (fun row => mkRow9 row (Some (before_first "." (GeneID row)))
                                (after_first "." (GeneID row))) df.
Proof.
  rewrite add_loc_Last_S_unfold.
  destruct (Nat.eqb_spec (width (map (str_split ".") (map GeneID df))) 2)
    as [E | _]; [ | discriminate].
  intros [= <-].
  assert (Hall : forall row, In row df -> count_sep "." (GeneID row) <= 1).
  { intros row Hrow.
    pose proof (width_lower (str_split "." (GeneID row))
                  (map (str_split ".") (map GeneID df))) as W.
    rewrite str_split_length, E in W.
    assert (S (count_sep "." (GeneID row)) <= 2); [ | lia].
    apply W. rewrite map_map. apply in_map_iff. now exists row. }
  split; [exact Hall | split].
  - destruct (width_attained (map (str_split ".") (map GeneID df)))
      as [p [Hp Hlen]]; [lia | ].
    rewrite map_map in Hp. apply in_map_iff in Hp as [row [<- Hrow]].
    rewrite str_split_length, E in Hlen. exists row. split; [exact Hrow | lia].
  - apply map_ext_in. intros row Hrow.
    destruct (cells_of_versioned "." (GeneID row) (Hall row Hrow)) as [E7 E8].
    apply f_equal2; [exact E7 | exact E8].
Qed.

(** X9.  Under species S the split of a file goes through exactly when
    no identifier of the file has more than one ['.'] and at least one
    has one; otherwise it raises ValueError.  One identifier with two
    dots, or a file without any dot, stops the whole file. *)
Theorem locus_split_succeeds_iff (df : DataFrame) :
  ((exists rows, add_loc_Last sS df = Ok rows) <->
   (forall row, In row df -> count_sep "." (GeneID row) <= 1) /\
   (exists row, In row df /\ count_sep "." (GeneID row) = 1)) /\
  ((forall rows, add_loc_Last sS df <> Ok rows) <->
   add_loc_Last sS df = Raise ValueError).
Proof.
  split; split.
  - intros [rows H]. destruct (add_loc_Last_S_success df rows H) as [Hall [Hex _]].
    now split.
  - intros [Hall Hex]. rewrite add_loc_Last_S_unfold, (split_width_two df Hall Hex).
    eexists. reflexivity.
  - intros H. destruct (add_loc_Last sS df) as [rows | []]; [ | reflexivity].
    now destruct (H rows).
  - intros -> rows. discriminate.
Qed.

Section SplitParts.

Variable sep : ascii.

Lemma before_first_no_sep (s : string) :
  count_sep sep (before_first sep s) = 0.
Proof.
  induction s as [ | c s IH]; [reflexivity | ].
  cbn [before_first]. destruct (Ascii.eqb c sep) eqn:E; [reflexivity | ].
  cbn [count_sep]. now rewrite E, IH.
Qed.

Lemma before_after_first (s rest : string) :
  after_first sep s = Some rest ->
  s = (before_first sep s ++ String sep rest)%string.
Proof.
  induction s as [ | c s IH]; cbn [after_first before_first]; [discriminate | ].
  destruct (Ascii.eqb_spec c sep) as [-> | _].
  - intros [= ->]. reflexivity.
  - intros H. cbn [append]. now rewrite <- (IH H).
Qed.

End SplitParts.



(** ** The left join, whatever the workbook *)



(** The cleaning of a locus name and of the same name with its prefix. *)
Lemma clean_id_strips_leading_prefix_witness :
  clean_id ("gene:" ++ "Solyc01g000100.2") = "Solyc01g000100.2" /\
  clean_id "Solyc01g000100.2" = "Solyc01g000100.2".
Proof. apply clean_id_strips_leading_prefix. reflexivity. Defined.

(** ** Names of the output files *)

Lemma append_length (a b : string) :
  String.length (a ++ b) = String.length a + String.length b.
Proof. induction a as [ | c a IH]; cbn; [reflexivity | now rewrite IH]. Qed.

Lemma append_inv_head (p a b : string) : (p ++ a = p ++ b)%string -> a = b.
Proof. induction p as [ | c p IH]; cbn; [auto | intros [= H]; auto]. Qed.

Lemma append_inv_tail (t a b : string) : (a ++ t = b ++ t)%string -> a = b.
Proof.
  revert b. induction a as [ | c a IH]; intros [ | d b] H.
  - reflexivity.
  - apply (f_equal String.length) in H. cbn in H. rewrite append_length in H. lia.
  - apply (f_equal String.length) in H. cbn in H. rewrite append_length in H. lia.
  - cbn in H. injection H as -> H. f_equal. now apply IH.
Qed.

Lemma NoDup_map_injective {X Y : Type} (f : X -> Y) (l : list X) :
  (forall x y, f x = f y -> x = y) -> NoDup l -> NoDup (map f l).
Proof.
  intros Inj ND. induction ND as [ | x l Hx ND IH]; cbn; constructor; [ | exact IH].
  intros [y [E Hy]]%in_map_iff. apply Inj in E. now subst y.
Qed.

Lemma lista_NoDup : NoDup lista.
Proof. unfold lista. repeat constructor; cbn; intuition discriminate. Qed.

(** The stem used in the file names is what stands before the first dot
    of the name of the input file. *)
Lemma stem_is_before_first_dot (file_name : string) :
  hd "" (file_nam_without_ext file_name) = before_first "." file_name.
Proof. unfold file_nam_without_ext. now rewrite str_split_unfold. Qed.

(** X12.  For every input file the seven expression files have seven
    different names, and so have the seven significant-only files. *)
Theorem output_files_of_one_input_are_distinct (file_name : string) :
  NoDup (map (expression_path file_name) lista) /\
  NoDup (map (sig_path file_name) lista) /\
  List.length lista = 7.
Proof.
  split; [ | split; [ | reflexivity] ];
    (apply NoDup_map_injective; [ | exact lista_NoDup]);
    intros x y H; unfold expression_path, sig_path in H;
    apply append_inv_head, append_inv_head, append_inv_head in H;
    now apply append_inv_tail in H.
Qed.


(** Two samples of one series share all their expression files. *)
Lemma sample_files_collide :
  sample_1 <> sample_2 /\
  map (expression_path sample_1) lista = map (expression_path sample_2) lista /\
  map (sig_path sample_1) lista = map (sig_path sample_2) lista.
Proof. repeat split. discriminate. Qed.

(** ** Choice of the annotation workbook *)

Lemma no_row_of_type (annotations : list (string * string)) (annotation : string) :
  ~ In annotation (map fst annotations) ->
  filter (fun r => String.eqb (fst r) annotation) annotations = [].
Proof.
  induction annotations as [ | [k n] l IH]; [reflexivity | ].
  cbn. intros H. destruct (String.eqb_spec k annotation) as [-> | _].
  - exfalso. apply H. now left.
  - apply IH. intros Hin. apply H. now right.
Qed.

Lemma annotation_f_absent (annotations : list (string * string))
      (annotation : string) :
  ~ In annotation (map fst annotations) ->
  annotation_f annotations annotation = Raise ValueError.
Proof. intros H. unfold annotation_f. now rewrite no_row_of_type. Qed.

Lemma item_not_single {X : Type} (series : list X) :
  List.length series <> 1 -> item series = Raise ValueError.
Proof. destruct series as [ | x [ | y l]]; cbn; congruence. Qed.



Lemma upper_ascii_not_lower (c : ascii) : is_lower (upper_ascii c) = false.
Proof.
  destruct c as [[] [] [] [] [] [] [] []]; reflexivity.
Qed.

Lemma upper_has_no_lower (s : string) : has_lower (upper s) = false.
Proof.
  induction s as [ | c s IH]; [reflexivity | ].
  cbn [upper has_lower]. now rewrite upper_ascii_not_lower, IH.
Qed.

(** X15.  The typed code is uppercased before the lookup, so an index
    whose codes all hold a lowercase letter can never be used: whatever
    is typed, the choice raises ValueError. *)
Theorem lowercase_codes_are_never_chosen (annotations : list (string * string))
        (typed : string) :
  (forall r, In r annotations -> has_lower (fst r) = true) ->
  choose_annotation annotations typed = Raise ValueError.
Proof.
  intros H. unfold choose_annotation.
  apply annotation_f_absent.
  intros [r [E Hr]]%in_map_iff.
  specialize (H r Hr). rewrite E, upper_has_no_lower in H. discriminate.
Qed.

Lemma lowercase_codes_are_never_chosen_witness :
  choose_annotation lowercase_index "itag4" = Raise ValueError.
Proof.
  apply lowercase_codes_are_never_chosen.
  intros r [<- | []]. reflexivity.
Defined.
